(** * Browser Use Agent: the Streamlit front end ([app.py], [example.py])

    A shallow embedding of the original logic of the repository: the
    reconciliation of the result lists of an agent run into per-step
    records, the verdict and summary, the [speed_up_gif] post-processing
    of the replay GIF, and the "Run Task" handler that ties them together.

    Python lists are [list]s, dictionaries are [gmap]s, integers are [Z]
    with floor division [Z.div]; exceptions are values of [exn] carried
    by the [result] type, and the handler runs in a state-and-exception
    monad over the Streamlit page and the file system. *)

From Stdlib Require Import ZArith String List Lia.
From stdpp Require Import base option list gmap strings.
Import ListNotations.

Local Open Scope string_scope.
Local Open Scope list_scope.
Local Open Scope Z_scope.

(** ** Python values and exceptions *)

(** The values the handler formats or passes on without looking inside:
    strings, integers, [None] and dictionaries (the "model actions" of the
    agent history are dictionaries of parameters). *)
#[warnings="-register-all"]
Inductive pyval : Type :=
| PyNone
| PyInt (n : Z)
| PyStr (s : string)
| PyDict (items : list (string * pyval)).

(** The exceptions that can occur in the modelled code.  [RunFailure]
    stands for whatever [agent.run()] raises, with its message text. *)
Inductive exn : Type :=
| IndexError
| ZeroDivisionError
| EOFError
| ValueError (msg : string)
| FileNotFoundError (path : string)
| UnidentifiedImageError (path : string)
| RunFailure (msg : string).

(** [str(e)]: the message text of an exception. *)
Definition str_exn (e : exn) : string :=
  match e with
  | IndexError => "list index out of range"
  | ZeroDivisionError => "integer division or modulo by zero"
  | EOFError => "attempt to seek outside sequence"
  | ValueError msg => msg
  | FileNotFoundError path =>
      "[Errno 2] No such file or directory: '" +:+ path +:+ "'"
  | UnidentifiedImageError path =>
      "cannot identify image file '" +:+ path +:+ "'"
  | RunFailure msg => msg
  end.

(** A computation that returns a value or raises. *)
Inductive result (A : Type) : Type :=
| Ok (a : A)
| Raise (e : exn).
Arguments Ok {A} a.
Arguments Raise {A} e.

Definition is_ok {A} (r : result A) : bool :=
  match r with Ok _ => true | Raise _ => false end.

#[global] Instance result_ret : MRet result := fun A a => Ok a.
#[global] Instance result_bind : MBind result := fun A B k r =>
  match r with
  | Ok a => k a
  | Raise e => Raise e
  end.

(** ** Python list operations *)

(** [l[i]] for an integer [i]: negative indices count from the end, and an
    index outside [-len(l) .. len(l)-1] raises [IndexError]. *)
Definition py_index {A} (l : list A) (i : Z) : result A :=
  let n := Z.of_nat (length l) in
  let j := if i <? 0 then n + i else i in
  if (0 <=? j) && (j <? n)
  then match l !! Z.to_nat j with
       | Some x => Ok x
       | None => Raise IndexError
       end
  else Raise IndexError.

(** Truth value of a list in a condition: non-empty. *)
Definition truthy {A} (l : list A) : bool :=
  match l with [] => false | _ :: _ => true end.

(** Truth value of a string: non-empty. *)
Definition str_truthy (s : string) : bool :=
  match s with EmptyString => false | String _ _ => true end.

(** [range(n)]. *)
Definition range (n : nat) : list nat := seq 0 n.

(** [for x in xs: body], threading the variables the body updates and
    stopping at the first exception. *)
Fixpoint for_each {S A} (body : S -> A -> result S) (xs : list A) (s : S)
  : result S :=
  match xs with
  | [] => Ok s
  | x :: xs' => s' ← body s x; for_each body xs' s'
  end.

(** [a // b] on integers: floor division, [ZeroDivisionError] for [b = 0]. *)
Definition floordiv (a b : Z) : result Z :=
  if b =? 0 then Raise ZeroDivisionError else Ok (a / b).

(** ** The result bundle of an agent run *)

(** What the handler reads off the history object (app.py, lines 133-138). *)
Record History : Type := {
  urls : list string;
  screenshots : list string;
  action_names : list string;
  extracted_content : list string;
  errors : list pyval;
  model_actions : list pyval;
}.

(** ** Reconciliation (app.py, lines 141-163) *)

(** Line 141:
    [extracted_content_list[-1] if extracted_content_list else "No result"]. *)
Definition final_extracted (h : History) : result string :=
  if truthy (extracted_content h)
  then py_index (extracted_content h) (-1)
  else Ok "No result".

(** Line 144: the condition of the failure banner,
    [errors and "done" not in action_names]. *)
Definition failed (h : History) : bool :=
  truthy (errors h) && negb (bool_decide ("done" ∈ action_names h)).

(** Lines 152-157. *)
Definition steps_count (h : History) : nat :=
  Nat.max (Nat.max (Nat.max (length (action_names h))
                                (length (extracted_content h)))
                       (length (model_actions h)))
          (length (urls h)).

(** One displayed step: the ordinal of its heading and the four fields. *)
Record StepRecord : Type := {
  index : nat;
  action : string;
  url : string;
  extracted : string;
  model_action : pyval;
}.

(** [xs[i] if i < len(xs) else na] (lines 160-163). *)
Definition field {A} (xs : list A) (i : nat) (na : A) : result A :=
  if (i <? length xs)%nat then py_index xs (Z.of_nat i) else Ok na.

(** The body of the loop at line 158 for one [i], without the display. *)
Definition step_record (h : History) (i : nat) : result StepRecord :=
  a ← field (action_names h) i "N/A";
  u ← field (urls h) i "N/A";
  x ← field (extracted_content h) i "N/A";
  m ← field (model_actions h) i (PyStr "N/A");
  mret {| index := i + 1; action := a; url := u;
          extracted := x; model_action := m |}.

(** The outcome the handler derives from a bundle. *)
Record RunOutcome : Type := {
  succeeded : bool;
  summary_text : string;
  steps : list StepRecord;
  debug : History;
}.

Definition reconcile (h : History) : result RunOutcome :=
  summary ← final_extracted h;
  records ← mapM (step_record h) (range (steps_count h));
  mret {| succeeded := negb (failed h); summary_text := summary;
          steps := records; debug := h |}.

(** ** Images and the file system *)

(** One frame of a decoded image: its pixel data and its [info]
    dictionary (the integer-valued entries, such as ['duration']). *)
Record Frame : Type := {
  pixels : list Z;
  info : gmap string Z;
}.

(** What a file holds, as far as [Image.open] can tell: bytes that no
    decoder identifies, or an image with its frames (at least one). *)
Inductive file_content : Type :=
| NotAnImage (raw : list Z)
| ImageFile (first : Frame) (rest : list Frame).

(** An opened image: its frames and the frame [seek] has selected. *)
Record Image : Type := {
  im_first : Frame;
  im_rest : list Frame;
  im_pos : nat;
}.

Definition im_frames (img : Image) : list Frame := im_first img :: im_rest img.

Definition n_frames (img : Image) : nat := length (im_frames img).

(** [Image.open(path)]: a missing file and an unidentified one both raise. *)
Definition Image_open (fs : gmap string file_content) (path : string)
  : result Image :=
  match fs !! path with
  | None => Raise (FileNotFoundError path)
  | Some (NotAnImage _) => Raise (UnidentifiedImageError path)
  | Some (ImageFile f rest) =>
      Ok {| im_first := f; im_rest := rest; im_pos := 0 |}
  end.

(** The image positioned at frame [k]. *)
Definition at_frame (img : Image) (k : nat) : Image :=
  {| im_first := im_first img; im_rest := im_rest img; im_pos := k |}.

(** [img.seek(frame)]. *)
Definition seek (img : Image) (frame : nat) : result Image :=
  if (frame <? n_frames img)%nat then Ok (at_frame img frame)
  else Raise EOFError.

(** The frame the image is positioned at. *)
Definition current (img : Image) : Frame :=
  nth (im_pos img) (im_frames img) (im_first img).

(** [img.info.get(key, dflt)]. *)
Definition info_get (img : Image) (key : string) (dflt : Z) : Z :=
  default dflt (info (current img) !! key).

(** [img.copy()]. *)
Definition copy (img : Image) : Frame := current img.

(** The animation written by [save(..., format='GIF', save_all=True)]:
    the frames in order, the per-frame durations and the loop count as
    they are handed to the encoder.  A loop count of [0] means "forever". *)
Record GifData : Type := {
  gif_frames : list (list Z);
  gif_durations : list Z;
  gif_loop : Z;
}.

Definition loop_forever : Z := 0.

(** [first.save(output, format='GIF', append_images=..., save_all=True,
    duration=..., loop=...)] followed by [output.getvalue()]. *)
Definition save_gif (first : Frame) (append_images : list Frame)
    (duration : list Z) (loop : Z) : GifData :=
  {| gif_frames := pixels <$> (first :: append_images);
     gif_durations := duration;
     gif_loop := loop |}.

(** ** [speed_up_gif] (app.py, lines 75-95) *)

Definition speed_up_gif (fs : gmap string file_content) (gif_path : string)
    (speed_factor : Z) : result GifData :=
  img ← Image_open fs gif_path;
  '(img, durations) ←
    for_each (fun '(img, durations) frame =>
                img ← seek img frame;
                mret (img, durations ++ [info_get img "duration" 100]))
             (range (n_frames img)) (img, []);
  '(img, frames) ←
    for_each (fun '(img, frames) frame =>
                img ← seek img frame;
                mret (img, frames ++ [copy img]))
             (range (n_frames img)) (img, []);
  first ← py_index frames 0;
  let append_images := drop 1 frames in
  duration ← mapM (fun d => floordiv d speed_factor) durations;
  mret (save_gif first append_images duration loop_forever).

(** ** [get_llm] (example.py, lines 25-43) *)

Inductive LLM : Type :=
| ChatOpenAI (model : string)
| ChatGoogleGenerativeAI (model : string) (convert_system_message_to_human : bool).

(** ** The Streamlit page *)

(** An f-string: literal text and formatted values, in order. *)
Inductive piece : Type :=
| Lit (s : string)
| Fmt (v : pyval).

(** The display elements the application writes. *)
Inductive element : Type :=
| Error (text : list piece)
| Success (text : list piece)
| Markdown (text : list piece)
| Divider
| ImageEl (data : GifData) (caption : string)
| Json (h : History)
| Expander (label : string) (body : element).

(** The three [st.empty()] placeholders of lines 71-73; each holds at most
    one element, and writing to it replaces what it showed. *)
Inductive Container : Type :=
| final_result_container
| agent_history_container
| gif_container.

(** The arguments the [Agent] is created with (lines 120-125). *)
Record AgentArgs : Type := {
  agent_task : string;
  agent_llm : LLM;
  agent_use_vision : bool;
  agent_browser : option string;
}.

(** What the handler reads and changes: the placeholders, the elements
    appended to the page, the file system, and the agents started so far. *)
Record World : Type := {
  final_result : option element;
  agent_history : option element;
  gif : option element;
  page : list element;
  files : gmap string file_content;
  started : list AgentArgs;
}.

(** The widget values of one script run (lines 51-68 and 110). *)
Record Session : Type := {
  model_type : string;
  USE_PERSONAL_BROWSER : bool;
  USE_VISION : bool;
  task : string;
  run_task_clicked : bool;
}.

Definition with_page (w : World) (p : list element) : World :=
  {| final_result := final_result w; agent_history := agent_history w;
     gif := gif w; page := p; files := files w; started := started w |}.

Definition with_final_result (w : World) (e : option element) : World :=
  {| final_result := e; agent_history := agent_history w;
     gif := gif w; page := page w; files := files w; started := started w |}.

Definition with_agent_history (w : World) (e : option element) : World :=
  {| final_result := final_result w; agent_history := e;
     gif := gif w; page := page w; files := files w; started := started w |}.

Definition with_gif (w : World) (e : option element) : World :=
  {| final_result := final_result w; agent_history := agent_history w;
     gif := e; page := page w; files := files w; started := started w |}.

(** ** The state-and-exception monad of the handler *)

Definition App (A : Type) : Type := World -> result A * World.

#[global] Instance app_ret : MRet App := fun A a w => (Ok a, w).
#[global] Instance app_bind : MBind App := fun A B k m w =>
  match m w with
  | (Ok a, w') => k a w'
  | (Raise e, w') => (Raise e, w')
  end.

(** A pure computation, whose exception (if any) is raised in place. *)
Definition lift {A} (r : result A) : App A := fun w => (r, w).

(** [try: body except Exception as e: handler e].  Effects of [body]
    before the exception stay. *)
Definition try_except {A} (body : App A) (handler : exn -> App A) : App A :=
  fun w =>
    match body w with
    | (Ok a, w') => (Ok a, w')
    | (Raise e, w') => handler e w'
    end.

(** [for x in xs: body x]. *)
Fixpoint for_ {A} (xs : list A) (body : A -> App unit) : App unit :=
  match xs with
  | [] => mret tt
  | x :: xs' => body x;; for_ xs' body
  end.

(** Writing to the page: [st.error], [st.markdown], ... append. *)
Definition st_write (e : element) : App unit := fun w =>
  (Ok tt, with_page w (page w ++ [e])).

(** Writing to a placeholder ([None] for [.empty()]). *)
Definition container_set (c : Container) (e : option element) : App unit :=
  fun w =>
    (Ok tt,
     match c with
     | final_result_container => with_final_result w e
     | agent_history_container => with_agent_history w e
     | gif_container => with_gif w e
     end).

(** [os.path.exists(path)]. *)
Definition os_path_exists (path : string) : App bool := fun w =>
  (Ok (bool_decide (is_Some (files w !! path))), w).

(** [speed_up_gif] on the current file system. *)
Definition speed_up (gif_path : string) (speed_factor : Z) : App GifData :=
  fun w => (speed_up_gif (files w) gif_path speed_factor, w).

Section Handler.

(** The collaborators outside the repository: the environment
    variables, the outcome of loading the Google credentials, and the
    agent run, which returns a history or raises and may write files
    (the replay GIF). *)
Context (environ : gmap string string).
Context (credentials : result unit).
Context (agent_run : AgentArgs -> gmap string file_content ->
                     result History * gmap string file_content).

(** [os.getenv(key, dflt)]. *)
Definition os_getenv (key dflt : string) : string :=
  default dflt (environ !! key).

Definition setup_google_auth : result unit := credentials.

Definition get_llm (model_type : string) : result LLM :=
  if String.eqb model_type "openai" then
    Ok (ChatOpenAI "gpt-4o")
  else if String.eqb model_type "gemini" then
    _ ← setup_google_auth;
    Ok (ChatGoogleGenerativeAI "gemini-2.0-flash-exp" true)
  else
    Raise (ValueError ("Unknown model type: " +:+ model_type)).

(** Lines 99-108. *)
Definition browser (s : Session) : option string :=
  if USE_PERSONAL_BROWSER s
  then Some (os_getenv "CHROME_INSTANCE_PATH"
               "/Applications/Google Chrome.app/Contents/MacOS/Google Chrome")
  else None.

(** Lines 120-125: the agent created for a session and a client. *)
Definition agent_of (s : Session) (llm : LLM) : AgentArgs :=
  {| agent_task := task s; agent_llm := llm;
     agent_use_vision := USE_VISION s;
     agent_browser := browser s |}.

(** [asyncio.run(agent.run())]: the one place the agent is started. *)
Definition run_agent (agent : AgentArgs) : App History := fun w =>
  let '(r, fs) := agent_run agent (files w) in
  (r, {| final_result := final_result w; agent_history := agent_history w;
         gif := gif w; page := page w;
         files := fs; started := started w ++ [agent] |}).

(** Lines 159-168: one iteration of the step loop. *)
Definition show_step (h : History) (i : nat) : App unit :=
  st_write (Markdown [Lit "#### Step "; Fmt (PyInt (Z.of_nat i + 1))]);;
  action ← lift (field (action_names h) i "N/A");
  url ← lift (field (urls h) i "N/A");
  extracted ← lift (field (extracted_content h) i "N/A");
  model_action ← lift (field (model_actions h) i (PyStr "N/A"));
  st_write (Markdown [Lit "**Action:** "; Fmt (PyStr action)]);;
  st_write (Markdown [Lit "**URL:** "; Fmt (PyStr url)]);;
  st_write (Markdown [Lit "**Extracted Content:** "; Fmt (PyStr extracted)]);;
  st_write (Markdown [Lit "**Model Action:** "; Fmt model_action]);;
  st_write Divider.

(** Lines 140-179: banner, steps and debug view for a returned history. *)
Definition show_history (h : History) : App unit :=
  final ← lift (final_extracted h);
  (if failed h
   then container_set final_result_container
          (Some (Error [Lit "❌ Task Failed: "; Fmt (PyStr final)]))
   else container_set final_result_container
          (Some (Success [Lit "✅ Task Completed Successfully: ";
                          Fmt (PyStr final)])));;
  st_write (Markdown [Lit "### Steps"]);;
  for_ (range (steps_count h)) (show_step h);;
  st_write (Expander "Debug View" (Json h)).

(** Lines 181-185. *)
Definition show_gif : App unit :=
  present ← os_path_exists "agent_history.gif";
  if (present : bool) then
    container_set gif_container (Some (Markdown [Lit "### Task Execution"]));;
    gif_bytes ← speed_up "agent_history.gif" 2;
    container_set gif_container
      (Some (ImageEl gif_bytes "Task execution steps (2x speed)"))
  else mret tt.

(** Lines 187-194: the handler of the catch-all [except]. *)
Definition on_exception (e : exn) : App unit :=
  container_set final_result_container
    (Some (Error [Lit "❌ Task Failed: "; Fmt (PyStr (str_exn e))]));;
  present ← os_path_exists "agent_history.gif";
  (if (present : bool) then
     container_set gif_container
       (Some (Markdown [Lit "### Task Execution (Failed)"]));;
     gif_bytes ← speed_up "agent_history.gif" 2;
     container_set gif_container
       (Some (ImageEl gif_bytes
                "Task execution steps before failure (2x speed)"))
   else mret tt);;
  st_write (Expander "Debug View" (Error [Fmt (PyStr (str_exn e))])).

(** Lines 110-194: the script from the "Run Task" button on.  The
    result is [Raise e] when an exception leaves the script. *)
Definition run_task (s : Session) : App unit :=
  if run_task_clicked s then
    if negb (str_truthy (task s)) then
      st_write (Error [Lit "Please enter a task first!"])
    else
      container_set final_result_container None;;
      container_set agent_history_container None;;
      container_set gif_container None;;
      llm ← lift (get_llm (model_type s));
      let agent := agent_of s llm in
      try_except
        (history ← run_agent agent;
         show_history history;;
         show_gif)
        on_exception
  else mret tt.

End Handler.


(** ** The outcome as it is displayed *)

(** The banner of lines 144-147, as a function of the outcome. *)
Definition banner (o : RunOutcome) : element :=
  if succeeded o
  then Success [Lit "✅ Task Completed Successfully: ";
                Fmt (PyStr (summary_text o))]
  else Error [Lit "❌ Task Failed: "; Fmt (PyStr (summary_text o))].

(** The page elements of one step (lines 159 and 164-168). *)
Definition render_step (r : StepRecord) : list element :=
  [ Markdown [Lit "#### Step "; Fmt (PyInt (Z.of_nat (index r)))];
    Markdown [Lit "**Action:** "; Fmt (PyStr (action r))];
    Markdown [Lit "**URL:** "; Fmt (PyStr (url r))];
    Markdown [Lit "**Extracted Content:** "; Fmt (PyStr (extracted r))];
    Markdown [Lit "**Model Action:** "; Fmt (model_action r)];
    Divider ].

(** Everything lines 150-179 append to the page. *)
Definition render (o : RunOutcome) : list element :=
  Markdown [Lit "### Steps"]
    :: concat (render_step <$> steps o)
    ++ [Expander "Debug View" (Json (debug o))].

(** The failure banner of line 188. *)
Definition failure_banner (e : exn) : element :=
  Error [Lit "❌ Task Failed: "; Fmt (PyStr (str_exn e))].

(** ** Closed forms used in the statements *)

(** The record of step [i], read off the lists directly. *)
Definition record_at (h : History) (i : nat) : StepRecord :=
  {| index := i + 1;
     action := default "N/A" (action_names h !! i);
     url := default "N/A" (urls h !! i);
     extracted := default "N/A" (extracted_content h !! i);
     model_action := default (PyStr "N/A") (model_actions h !! i) |}.

(** The duration [speed_up_gif] reads for a frame (line 81). *)
Definition frame_duration (f : Frame) : Z :=
  default 100 (info f !! "duration").

(** The spec's "multi-frame image": a file that decodes to more than one
    frame. *)
Definition multi_frame (fs : gmap string file_content) (path : string) : bool :=
  match fs !! path with
  | Some (ImageFile _ (_ :: _)) => true
  | _ => false
  end.

(** The spec's [DecodeError]: what [Image.open] raises for a missing file
    or for one it cannot identify. *)
Definition DecodeError (e : exn) : bool :=
  match e with
  | FileNotFoundError _ | UnidentifiedImageError _ => true
  | _ => false
  end.

(** ** Sample data *)

Definition frame_of (px : list Z) (d : option Z) : Frame :=
  {| pixels := px;
     info := match d with
             | Some d => {[ "duration" := d ]}
             | None => ∅
             end |}.

Definition empty_history : History :=
  {| urls := []; screenshots := []; action_names := [];
     extracted_content := []; errors := []; model_actions := [] |}.

(** The scenario of the specification. *)
Definition sample_history : History :=
  {| urls := ["u1"]; screenshots := [];
     action_names := ["click"; "done"];
     extracted_content := ["hello"; "world"];
     errors := [];
     model_actions := [PyDict []; PyDict []] |}.

(** A run that recorded an error and still ended with "done". *)
Definition done_with_errors : History :=
  {| urls := ["u1"]; screenshots := [];
     action_names := ["click"; "done"];
     extracted_content := ["partial"];
     errors := [PyStr "element not found"];
     model_actions := [] |}.

Definition three_frames : gmap string file_content :=
  {[ "agent_history.gif" :=
       ImageFile (frame_of [1; 1] (Some 100))
                 [frame_of [2; 2] (Some 100); frame_of [3; 3] (Some 100)] ]}.

Definition untimed_frames : gmap string file_content :=
  {[ "agent_history.gif" :=
       ImageFile (frame_of [1; 1] (Some 40)) [frame_of [2; 2] None] ]}.

Definition single_frame : gmap string file_content :=
  {[ "agent_history.gif" := ImageFile (frame_of [7; 7] (Some 100)) [] ]}.

Definition garbled_file : gmap string file_content :=
  {[ "agent_history.gif" := NotAnImage [71; 73; 70] ]}.

Definition blank_page (fs : gmap string file_content) : World :=
  {| final_result := None; agent_history := None; gif := None;
     page := []; files := fs; started := [] |}.

Definition sample_session (t : string) : Session :=
  {| model_type := "openai"; USE_PERSONAL_BROWSER := false;
     USE_VISION := false; task := t; run_task_clicked := true |}.

(** An agent run that returns [sample_history] and leaves a file at the
    replay path that no decoder identifies. *)
Definition garbling_agent (a : AgentArgs) (fs : gmap string file_content)
  : result History * gmap string file_content :=
  (Ok sample_history, <[ "agent_history.gif" := NotAnImage [71; 73; 70] ]> fs).

(** ** The handler after the agent has run *)

(** The world once the placeholders are cleared (lines 115-117) and the
    agent [a] has run, leaving the files [fs]. *)
Definition after_agent (w : World) (a : AgentArgs)
    (fs : gmap string file_content) : World :=
  {| final_result := None; agent_history := None; gif := None;
     page := page w; files := fs; started := started w ++ [a] |}.

(** The debug view of the catch-all (lines 193-194). *)
Definition failure_debug_view (e : exn) : element :=
  Expander "Debug View" (Error [Fmt (PyStr (str_exn e))]).

(** ** The debug page ([scratch/basic_usage.py]) *)

(** What the debug page displays: [st.error] and [st.text_area]. *)
Inductive debug_element : Type :=
| DebugError (text : list piece)
| TextArea (label : string) (value : string) (height : Z).

(** The page, the records handed to [logging.info], the file system and
    the agents started (each with its task and client). *)
Record DebugWorld : Type := {
  debug_page : list debug_element;
  debug_log : list string;
  debug_files : gmap string file_content;
  debug_started : list (string * LLM);
}.

Definition newline : string := String (Ascii.ascii_of_nat 10) EmptyString.

Definition debug_write (e : debug_element) (w : DebugWorld) : DebugWorld :=
  {| debug_page := debug_page w ++ [e]; debug_log := debug_log w;
     debug_files := debug_files w; debug_started := debug_started w |}.

Definition logging_info (msg : string) (w : DebugWorld) : DebugWorld :=
  {| debug_page := debug_page w; debug_log := debug_log w ++ [msg];
     debug_files := debug_files w; debug_started := debug_started w |}.

Section DebugPage.

(** The collaborators: the environment, the credentials, the agent run
    (here created with a task and a client only) and [pprint]'s
    formatting of its result. *)
Context (environ : gmap string string).
Context (credentials : result unit).
Context (agent_run : string -> LLM -> gmap string file_content ->
                     result History * gmap string file_content).
Context (pformat : History -> string).

(** Lines 28-45: the body of the [try]. *)
Definition debug_try (task : string) (w : DebugWorld)
  : result unit * DebugWorld :=
  match get_llm credentials (os_getenv environ "LLM_TYPE" "gemini") with
  | Raise e => (Raise e, w)
  | Ok llm =>
      let '(r, fs) := agent_run task llm (debug_files w) in
      let w1 := {| debug_page := debug_page w; debug_log := debug_log w;
                   debug_files := fs;
                   debug_started := debug_started w ++ [(task, llm)] |} in
      match r with
      | Raise e => (Raise e, w1)
      | Ok result =>
          let formatted_result := pformat result in
          let w2 := debug_write
                      (TextArea "Debug Output (copy and paste this)"
                                formatted_result 500) w1 in
          (Ok tt,
           logging_info ("Agent run result:" +:+ newline +:+ formatted_result)
                        w2)
      end
  end.

(** Lines 23-48: the script from the button on. *)
Definition debug_run_task (task : string) (clicked : bool) (w : DebugWorld)
  : result unit * DebugWorld :=
  if clicked then
    if negb (str_truthy task) then
      (Ok tt, debug_write (DebugError [Lit "Please enter a task first!"]) w)
    else
      match debug_try task w with
      | (Ok a, w') => (Ok a, w')
      | (Raise e, w') =>
          (Ok tt,
           debug_write (DebugError [Lit "An error occurred: ";
                                    Fmt (PyStr (str_exn e))]) w')
      end
  else (Ok tt, w).

End DebugPage.

(** ** More sample data *)

Definition blank_debug_page : DebugWorld :=
  {| debug_page := []; debug_log := []; debug_files := ∅;
     debug_started := [] |}.

(** An agent run that returns [sample_history] and writes three frames of
    100 ms to the replay path. *)
Definition recording_agent (a : AgentArgs) (fs : gmap string file_content)
  : result History * gmap string file_content :=
  (Ok sample_history,
   <[ "agent_history.gif" :=
        ImageFile (frame_of [1; 1] (Some 100))
                  [frame_of [2; 2] (Some 100); frame_of [3; 3] (Some 100)] ]> fs).

(** An agent run that returns [sample_history] and writes no file. *)
Definition quiet_agent (a : AgentArgs) (fs : gmap string file_content)
  : result History * gmap string file_content :=
  (Ok sample_history, fs).


(** The debug page's agent: returns [sample_history]. *)
Definition debug_agent (task : string) (llm : LLM)
    (fs : gmap string file_content)
  : result History * gmap string file_content :=
  (Ok sample_history, fs).

(** * Properties *)

(** ** Lists and indexing *)

Lemma py_index_lookup {A} (l : list A) (i : nat) (x : A) :
  l !! i = Some x -> py_index l (Z.of_nat i) = Ok x.
Proof.
  intros Hl. pose proof (lookup_lt_Some _ _ _ Hl) as Hlt.
  unfold py_index. cbv zeta.
  destruct (Z.ltb_spec (Z.of_nat i) 0) as [Hneg | _]; [lia |].
  destruct (Z.leb_spec 0 (Z.of_nat i)) as [_ | Hneg]; [| lia].
  destruct (Z.ltb_spec (Z.of_nat i) (Z.of_nat (length l))) as [_ | Hge]; [| lia].
  simpl. rewrite Nat2Z.id, Hl. reflexivity.
Qed.

Lemma py_index_last {A} (l : list A) (x : A) :
  last l = Some x -> py_index l (-1) = Ok x.
Proof.
  intros Hl. rewrite last_lookup in Hl.
  pose proof (lookup_lt_Some _ _ _ Hl) as Hlt.
  unfold py_index. cbv zeta.
  change (-1 <? 0) with true. cbv iota.
  set (n := Z.of_nat (length l)).
  destruct (Z.leb_spec 0 (n + -1)) as [_ | Hneg]; [| lia].
  destruct (Z.ltb_spec (n + -1) n) as [_ | Hge]; [| lia].
  simpl. replace (Z.to_nat (n + -1)) with (pred (length l)) by lia.
  rewrite Hl. reflexivity.
Qed.

Lemma field_spec {A} (xs : list A) (i : nat) (na : A) :
  field xs i na = Ok (default na (xs !! i)).
Proof.
  unfold field. destruct (Nat.ltb_spec i (length xs)) as [Hlt | Hge].
  - destruct (lookup_lt_is_Some_2 xs i Hlt) as [x Hx].
    rewrite (py_index_lookup _ _ _ Hx), Hx. reflexivity.
  - rewrite (lookup_ge_None_2 xs i) by lia. reflexivity.
Qed.

Lemma mapM_ok {A B} (f : A -> result B) (g : A -> B) (l : list A) :
  (forall x, f x = Ok (g x)) -> mapM f l = Ok (g <$> l).
Proof.
  intros Hf. induction l as [| x l IH]; [reflexivity |].
  cbn. rewrite Hf. cbn.
  change (match mapM f l with Ok a => _ | Raise e => _ end)
    with (mapM f l ≫= fun k => mret (g x :: k)).
  rewrite IH. reflexivity.
Qed.

Lemma step_record_spec (h : History) (i : nat) :
  step_record h i = Ok (record_at h i).
Proof.
  unfold step_record. rewrite !field_spec. reflexivity.
Qed.

Lemma final_extracted_spec (h : History) :
  final_extracted h = Ok (default "No result" (last (extracted_content h))).
Proof.
  unfold final_extracted.
  destruct (extracted_content h) as [| x l] eqn:E; [reflexivity |].
  destruct (last (x :: l)) as [y |] eqn:Hy.
  - simpl truthy. cbv iota. apply py_index_last. exact Hy.
  - apply last_None in Hy. discriminate.
Qed.

Lemma reconcile_spec (h : History) :
  reconcile h =
    Ok {| succeeded := negb (failed h);
          summary_text := default "No result" (last (extracted_content h));
          steps := record_at h <$> range (steps_count h);
          debug := h |}.
Proof.
  unfold reconcile. rewrite final_extracted_spec. cbn.
  rewrite (mapM_ok _ (record_at h)) by apply step_record_spec.
  reflexivity.
Qed.

(** ** The handler's display of a history *)

Lemma with_page_same (w : World) : with_page w (page w) = w.
Proof. destruct w; reflexivity. Qed.

Lemma show_step_spec (h : History) (i : nat) (w : World) :
  show_step h i w =
    (Ok tt, with_page w (page w ++ render_step (record_at h i))).
Proof.
  unfold show_step.
  cbv [mbind app_bind lift st_write].
  rewrite !field_spec. cbn [page with_page].
  unfold with_page at 1. cbn [final_result agent_history gif page files started with_page].
  unfold render_step, record_at. cbn [index action url extracted model_action].
  rewrite Nat2Z.inj_add. rewrite <- !app_assoc. reflexivity.
Qed.

Lemma show_steps_spec (h : History) (xs : list nat) (w : World) :
  for_ xs (show_step h) w =
    (Ok tt,
     with_page w (page w ++ concat (render_step <$> (record_at h <$> xs)))).
Proof.
  revert w. induction xs as [| x xs IH]; intros w.
  - cbn. rewrite app_nil_r, with_page_same. reflexivity.
  - cbn [for_]. cbv [mbind app_bind]. rewrite show_step_spec, IH.
    cbn [page with_page fmap list_fmap concat].
    rewrite <- !app_assoc. reflexivity.
Qed.

Lemma show_history_spec (h : History) (w : World) :
  exists o, reconcile h = Ok o /\
    show_history h w =
      (Ok tt, with_final_result (with_page w (page w ++ render o))
                                (Some (banner o))).
Proof.
  rewrite reconcile_spec. eexists. split; [reflexivity |].
  unfold show_history. cbv [mbind app_bind lift].
  rewrite final_extracted_spec.
  unfold banner, render.
  cbn [succeeded summary_text steps debug].
  destruct (failed h); cbn [negb];
    cbv [container_set st_write];
    rewrite show_steps_spec;
    cbn [page with_page with_final_result final_result agent_history
         gif files started];
    rewrite <- !app_assoc; reflexivity.
Qed.

(** ** The verdict, the summary and the steps *)

Lemma truthy_nil {A} (l : list A) : truthy l = false <-> l = [].
Proof. destruct l; simpl; split; congruence. Qed.

(** C1: the verdict of a bundle is "succeeded" exactly when [errors] is
    empty or "done" occurs among [action_names]; in particular a "done"
    action makes the run a success whatever [errors] holds, and the banner
    the handler shows is the one of that verdict. *)
Theorem verdict_done_or_no_errors (h : History) :
  exists o, reconcile h = Ok o /\
    (succeeded o = true <-> errors h = [] \/ "done" ∈ action_names h) /\
    ("done" ∈ action_names h -> succeeded o = true) /\
    (forall w, final_result (show_history h w).2 = Some (banner o)).
Proof.
  assert (Hv : negb (failed h) = true <->
               errors h = [] \/ "done" ∈ action_names h).
  { unfold failed. rewrite negb_true_iff, andb_false_iff, negb_false_iff.
    rewrite truthy_nil, bool_decide_eq_true. reflexivity. }
  destruct (show_history_spec h (blank_page ∅)) as (o & Ho & _).
  exists o. split; [exact Ho |].
  pose proof Ho as Ho'. rewrite reconcile_spec in Ho'.
  injection Ho' as <-. cbn [succeeded].
  split; [exact Hv |]. split.
  - intros Hd. apply Hv. right. exact Hd.
  - intros w. destruct (show_history_spec h w) as (o' & Ho' & ->).
    rewrite reconcile_spec in Ho'. injection Ho' as <-. reflexivity.
Qed.

(** C1, on a run that recorded an error and ended with "done". *)
Lemma verdict_done_or_no_errors_witness :
  exists o, reconcile done_with_errors = Ok o /\ succeeded o = true /\
            errors done_with_errors <> [].
Proof.
  destruct (verdict_done_or_no_errors done_with_errors)
    as (o & Ho & _ & Hdone & _).
  exists o. split; [exact Ho |]. split.
  - apply Hdone. cbn. apply list_elem_of_In. simpl. tauto.
  - discriminate.
Defined.

(** C2: the number of step records is the largest of the lengths of
    [action_names], [extracted_content], [model_actions] and [urls]; with
    all four empty there is no record; no position at or beyond that
    number holds a record, and the ordinals shown run from 1 to it. *)
Theorem step_count_is_longest_list (h : History) :
  exists o, reconcile h = Ok o /\
    length (steps o) =
      Nat.max (Nat.max (Nat.max (length (action_names h))
                                (length (extracted_content h)))
                       (length (model_actions h)))
              (length (urls h)) /\
    (action_names h = [] -> extracted_content h = [] ->
     model_actions h = [] -> urls h = [] -> steps o = []) /\
    (forall i, (length (steps o) <= i)%nat -> steps o !! i = None) /\
    (forall i r, steps o !! i = Some r ->
                 index r = (i + 1)%nat /\ (index r <= length (steps o))%nat).
Proof.
  rewrite reconcile_spec. eexists. split; [reflexivity |].
  cbn [steps]. unfold range.
  assert (Hlen : length (record_at h <$> seq 0 (steps_count h))
                 = steps_count h)
    by (rewrite length_fmap, length_seq; reflexivity).
  split; [exact Hlen |]. split; [| split].
  - intros Ha Hx Hm Hu. unfold steps_count.
    rewrite Ha, Hx, Hm, Hu. reflexivity.
  - intros i Hi. apply lookup_ge_None_2. exact Hi.
  - intros i r Hr. pose proof (lookup_lt_Some _ _ _ Hr) as Hlt.
    rewrite list_lookup_fmap in Hr.
    rewrite lookup_seq_lt in Hr by lia.
    cbn in Hr. injection Hr as <-. cbn [index record_at]. lia.
Qed.

(** C3: for [i] below the step count, the record at position [i] takes
    each field from position [i] of its list when the list is that long,
    and the "N/A" marker otherwise; its ordinal is [i + 1], so the records
    follow the positions of the lists. *)
Theorem step_fields_by_position (h : History) (i : nat) :
  (i < steps_count h)%nat ->
  exists o r, reconcile h = Ok o /\ steps o !! i = Some r /\
    index r = (i + 1)%nat /\
    (forall a, action_names h !! i = Some a -> action r = a) /\
    ((length (action_names h) <= i)%nat -> action r = "N/A") /\
    (forall u, urls h !! i = Some u -> url r = u) /\
    ((length (urls h) <= i)%nat -> url r = "N/A") /\
    (forall x, extracted_content h !! i = Some x -> extracted r = x) /\
    ((length (extracted_content h) <= i)%nat -> extracted r = "N/A") /\
    (forall m, model_actions h !! i = Some m -> model_action r = m) /\
    ((length (model_actions h) <= i)%nat -> model_action r = PyStr "N/A").
Proof.
  intros Hi. rewrite reconcile_spec.
  eexists. exists (record_at h i). split; [reflexivity |].
  cbn [steps]. unfold range. split.
  - rewrite list_lookup_fmap, lookup_seq_lt by exact Hi. reflexivity.
  - cbn [record_at index action url extracted model_action].
    split; [reflexivity |].
    repeat split;
      first [ intros v Hv; rewrite Hv; reflexivity
            | intros Hge; rewrite lookup_ge_None_2 by exact Hge; reflexivity ].
Qed.

(** C3, on the scenario of the specification: the second step has no URL. *)
Lemma step_fields_by_position_witness :
  exists o r, reconcile sample_history = Ok o /\ steps o !! 1%nat = Some r /\
    action r = "done" /\ url r = "N/A" /\ extracted r = "world".
Proof.
  destruct (step_fields_by_position sample_history 1)
    as (o & r & Ho & Hr & _ & Ha & _ & _ & Hu & Hx & _).
  - vm_compute. lia.
  - exists o, r. split; [exact Ho |]. split; [exact Hr |].
    split; [apply Ha; reflexivity |].
    split; [apply Hu; simpl; lia | apply Hx; reflexivity].
Defined.

(** C4: the summary is the last element of [extracted_content] when there
    is one, and "No result" when the list is empty. *)
Theorem summary_is_last_extracted (h : History) :
  exists o, reconcile h = Ok o /\
    (forall x, last (extracted_content h) = Some x -> summary_text o = x) /\
    (extracted_content h = [] -> summary_text o = "No result").
Proof.
  rewrite reconcile_spec. eexists. split; [reflexivity |].
  cbn [summary_text]. split.
  - intros x Hx. rewrite Hx. reflexivity.
  - intros Hx. rewrite Hx. reflexivity.
Qed.

(** C8: reconciliation never raises, also on the empty bundle; it yields
    one outcome per bundle; and displaying it changes the banner and the
    page by elements that depend on the bundle alone, without touching
    the files or starting an agent. *)
Theorem reconcile_total_deterministic (h : History) :
  (exists o, reconcile h = Ok o) /\
  reconcile empty_history =
    Ok {| succeeded := true; summary_text := "No result";
          steps := []; debug := empty_history |} /\
  (forall o1 o2, reconcile h = Ok o1 -> reconcile h = Ok o2 -> o1 = o2) /\
  (forall w, exists o, reconcile h = Ok o /\
     show_history h w =
       (Ok tt, with_final_result (with_page w (page w ++ render o))
                                 (Some (banner o)))).
Proof.
  split; [rewrite reconcile_spec; eexists; reflexivity |].
  split; [reflexivity |]. split.
  - intros o1 o2 H1 H2. congruence.
  - intros w. apply show_history_spec.
Qed.

(** ** [speed_up_gif] *)

Lemma seek_ok (img : Image) (k : nat) :
  (k < n_frames img)%nat -> seek img k = Ok (at_frame img k).
Proof.
  intros Hk. unfold seek.
  destruct (Nat.ltb_spec k (n_frames img)); [reflexivity | lia].
Qed.

(** A loop that seeks to each frame in turn and appends what it reads
    there collects the readings of the frames [a .. a+n-1]. *)
Lemma seek_loop_spec {B} (g : Image -> B) (n : nat) :
  forall (a : nat) (img : Image) (acc : list B),
    (a + n <= n_frames img)%nat ->
    exists img',
      im_first img' = im_first img /\ im_rest img' = im_rest img /\
      for_each (fun '(img, xs) frame =>
                  img ← seek img frame; mret (img, xs ++ [g img]))
               (seq a n) (img, acc)
      = Ok (img', acc ++ ((fun k => g (at_frame img k)) <$> seq a n)).
Proof.
  induction n as [| n IH]; intros a img acc Hn.
  - exists img. cbn. rewrite app_nil_r. auto.
  - cbn [seq for_each]. rewrite seek_ok by lia.
    cbn [mbind result_bind mret result_ret].
    destruct (IH (S a) (at_frame img a) (acc ++ [g (at_frame img a)]))
      as (img' & Hf & Hr & Heq).
    { change (n_frames (at_frame img a)) with (n_frames img). lia. }
    exists img'. split; [exact Hf |]. split; [exact Hr |].
    rewrite Heq. cbn [fmap list_fmap]. rewrite <- app_assoc. reflexivity.
Qed.

Lemma fmap_nth_seq {A B} (f : A -> B) (l : list A) (d : A) :
  (fun k => f (nth k l d)) <$> seq 0 (length l) = f <$> l.
Proof.
  apply list_eq. intros i. rewrite !list_lookup_fmap.
  destruct (l !! i) as [x |] eqn:Hx.
  - rewrite lookup_seq_lt by (eapply lookup_lt_Some; exact Hx).
    cbn. rewrite (nth_lookup_Some _ _ _ _ Hx). reflexivity.
  - rewrite lookup_seq_ge by (apply lookup_ge_None; exact Hx). reflexivity.
Qed.

Lemma floordiv_ok (a b : Z) : b <> 0 -> floordiv a b = Ok (a / b).
Proof.
  intros Hb. unfold floordiv. destruct (Z.eqb_spec b 0); [contradiction | reflexivity].
Qed.

(** On a file that decodes, with a non-zero factor, [speed_up_gif]
    returns the same frames with each duration divided. *)
Lemma speed_up_gif_spec (fs : gmap string file_content) (path : string)
    (f : Frame) (rest : list Frame) (s : Z) :
  fs !! path = Some (ImageFile f rest) -> s <> 0 ->
  speed_up_gif fs path s =
    Ok {| gif_frames := pixels <$> (f :: rest);
          gif_durations := (fun fr => frame_duration fr / s) <$> (f :: rest);
          gif_loop := loop_forever |}.
Proof.
  intros Hfile Hs. unfold speed_up_gif, Image_open. rewrite Hfile.
  cbn [mbind result_bind].
  set (img := {| im_first := f; im_rest := rest; im_pos := 0 |}).
  destruct (seek_loop_spec (fun i => info_get i "duration" 100)
              (n_frames img) 0%nat img [])
    as (img1 & Hf1 & Hr1 & Heq1); [lia |].
  unfold range. rewrite Heq1. cbn [mbind result_bind app].
  assert (Hn : n_frames img1 = n_frames img)
    by (unfold n_frames, im_frames; rewrite Hf1, Hr1; reflexivity).
  destruct (seek_loop_spec copy (n_frames img1) 0%nat img1 [])
    as (img2 & Hf2 & Hr2 & Heq2); [lia |].
  rewrite Heq2. cbn [mbind result_bind app].
  assert (Hframes : (fun k => copy (at_frame img1 k)) <$> seq 0 (n_frames img1)
                    = f :: rest).
  { rewrite Hn. unfold copy, current, at_frame, im_frames.
    cbn [im_pos im_first im_rest]. rewrite Hf1, Hr1.
    change (n_frames img) with (length (f :: rest)). cbn [im_first im_rest img].
    rewrite (fmap_nth_seq (fun x => x) (f :: rest) f).
    apply list_fmap_id. }
  assert (Hdur : (fun k => info_get (at_frame img k) "duration" 100)
                   <$> seq 0 (n_frames img)
                 = frame_duration <$> (f :: rest)).
  { unfold info_get, current, at_frame, im_frames.
    cbn [im_pos im_first im_rest img].
    change (n_frames img) with (length (f :: rest)).
    apply (fmap_nth_seq frame_duration (f :: rest) f). }
  rewrite Hframes, Hdur.
  change (py_index (f :: rest) 0) with (Ok f).
  cbn [mbind result_bind drop].
  rewrite (mapM_ok _ (fun d => d / s)) by (intros d; apply floordiv_ok, Hs).
  cbn [mbind result_bind mret result_ret].
  unfold save_gif. rewrite <- list_fmap_compose. reflexivity.
Qed.

Lemma speed_up_gif_missing (fs : gmap string file_content) (path : string) (s : Z) :
  fs !! path = None -> speed_up_gif fs path s = Raise (FileNotFoundError path).
Proof. intros H. unfold speed_up_gif, Image_open. rewrite H. reflexivity. Qed.

Lemma speed_up_gif_unidentified (fs : gmap string file_content)
    (path : string) (raw : list Z) (s : Z) :
  fs !! path = Some (NotAnImage raw) ->
  speed_up_gif fs path s = Raise (UnidentifiedImageError path).
Proof. intros H. unfold speed_up_gif, Image_open. rewrite H. reflexivity. Qed.

(** C5: for a file that decodes to the frames [f :: rest] and a factor
    [s >= 1], [speed_up_gif] returns an animation of the same frames, in
    order and with the same pixels, whose [i]-th duration is the [i]-th
    input duration divided by [s] (rounded down, possibly to 0), looping
    forever; for [s = 1] the durations are the input's. *)
Theorem speed_up_gif_divides_durations (fs : gmap string file_content)
    (path : string) (f : Frame) (rest : list Frame) (s : Z) :
  fs !! path = Some (ImageFile f rest) -> 1 <= s ->
  exists out, speed_up_gif fs path s = Ok out /\
    length (gif_frames out) = length (f :: rest) /\
    length (gif_durations out) = length (f :: rest) /\
    gif_frames out = pixels <$> (f :: rest) /\
    gif_durations out = (fun fr => frame_duration fr / s) <$> (f :: rest) /\
    (forall i fr d, (f :: rest) !! i = Some fr ->
                    info fr !! "duration" = Some d ->
                    gif_frames out !! i = Some (pixels fr) /\
                    gif_durations out !! i = Some (d / s)) /\
    gif_loop out = loop_forever /\
    (s = 1 -> gif_durations out = frame_duration <$> (f :: rest)).
Proof.
  intros Hfile Hs. rewrite (speed_up_gif_spec fs path f rest s Hfile) by lia.
  eexists. split; [reflexivity |].
  cbn [gif_frames gif_durations gif_loop].
  split; [apply length_fmap |]. split; [apply length_fmap |].
  split; [reflexivity |]. split; [reflexivity |].
  split; [| split; [reflexivity |]].
  - intros i fr d Hi Hd. rewrite !list_lookup_fmap, Hi. cbn.
    unfold frame_duration. rewrite Hd. auto.
  - intros ->. apply list_fmap_ext. intros ? fr ?. apply Z.div_1_r.
Qed.

(** C5, on three frames of 100 ms each at twice the speed. *)
Lemma speed_up_gif_divides_durations_witness :
  exists out, speed_up_gif three_frames "agent_history.gif" 2 = Ok out /\
    gif_frames out = [[1; 1]; [2; 2]; [3; 3]] /\
    gif_durations out = [50; 50; 50] /\
    gif_loop out = 0.
Proof.
  destruct (speed_up_gif_divides_durations three_frames "agent_history.gif"
              (frame_of [1; 1] (Some 100))
              [frame_of [2; 2] (Some 100); frame_of [3; 3] (Some 100)] 2)
    as (out & Hout & _ & _ & Hfr & Hdur & _ & Hloop & _).
  - reflexivity.
  - lia.
  - exists out. split; [exact Hout |].
    split; [rewrite Hfr; reflexivity |].
    split; [rewrite Hdur; reflexivity | exact Hloop].
Defined.

(** C7, as stated, fails on a file that decodes to a single frame: it is
    not a multi-frame image, and [speed_up_gif] re-encodes it. *)
Lemma single_frame_is_reencoded :
  multi_frame single_frame "agent_history.gif" = false /\
  speed_up_gif single_frame "agent_history.gif" 2 =
    Ok {| gif_frames := [[7; 7]]; gif_durations := [50]; gif_loop := 0 |}.
Proof. split; reflexivity. Qed.

(** C7, amended: for a path that does not exist, or whose content is not
    identified as an image, [speed_up_gif] raises ([FileNotFoundError] for
    the missing file, [UnidentifiedImageError] for the other) and returns
    no bytes. *)
Theorem speed_up_gif_rejects_missing_or_unidentified
    (fs : gmap string file_content) (path : string) (s : Z) :
  fs !! path = None \/ (exists raw, fs !! path = Some (NotAnImage raw)) ->
  exists e, speed_up_gif fs path s = Raise e /\
    DecodeError e = true /\
    is_ok (speed_up_gif fs path s) = false /\
    (fs !! path = None -> e = FileNotFoundError path).
Proof.
  intros [Hnone | [raw Hraw]].
  - exists (FileNotFoundError path).
    rewrite (speed_up_gif_missing _ _ _ Hnone). auto.
  - exists (UnidentifiedImageError path).
    rewrite (speed_up_gif_unidentified _ _ _ _ Hraw).
    repeat split. intros Hnone. congruence.
Qed.

(** C7, on a path that does not exist. *)
Lemma speed_up_gif_rejects_missing_or_unidentified_witness :
  exists e, speed_up_gif three_frames "missing.gif" 2 = Raise e /\
            DecodeError e = true.
Proof.
  destruct (speed_up_gif_rejects_missing_or_unidentified
              three_frames "missing.gif" 2) as (e & He & Hd & _).
  - left. reflexivity.
  - exists e. auto.
Defined.

(** C10: a frame without a recorded duration counts as 100 before the
    division: for every non-zero factor [s] its output duration is
    [100 / s] rounded down, and the call succeeds. *)
Theorem missing_duration_defaults_to_100 (fs : gmap string file_content)
    (path : string) (f : Frame) (rest : list Frame) (s : Z)
    (i : nat) (fr : Frame) :
  fs !! path = Some (ImageFile f rest) ->
  (f :: rest) !! i = Some fr ->
  info fr !! "duration" = None ->
  s <> 0 ->
  exists out, speed_up_gif fs path s = Ok out /\
    gif_durations out !! i = Some (100 / s).
Proof.
  intros Hfile Hi Hd Hs. rewrite (speed_up_gif_spec fs path f rest s Hfile Hs).
  eexists. split; [reflexivity |].
  cbn [gif_durations]. rewrite list_lookup_fmap, Hi. cbn.
  unfold frame_duration. rewrite Hd. reflexivity.
Qed.

(** C10, on a second frame without a duration at twice the speed. *)
Lemma missing_duration_defaults_to_100_witness :
  exists out, speed_up_gif untimed_frames "agent_history.gif" 2 = Ok out /\
    gif_durations out !! 1%nat = Some 50.
Proof.
  apply (missing_duration_defaults_to_100 untimed_frames "agent_history.gif"
           (frame_of [1; 1] (Some 40)) [frame_of [2; 2] None] 2 1
           (frame_of [2; 2] None)).
  - reflexivity.
  - reflexivity.
  - reflexivity.
  - lia.
Defined.

(** ** The "Run Task" handler *)

Lemma str_truthy_true (s : string) : str_truthy s = true <-> s <> EmptyString.
Proof. destruct s; simpl; split; congruence. Qed.

Lemma show_gif_started (w : World) :
  started (show_gif w).2 = started w /\ page (show_gif w).2 = page w.
Proof.
  unfold show_gif. cbv [mbind app_bind os_path_exists container_set speed_up].
  destruct (bool_decide _); [| split; reflexivity].
  destruct (speed_up_gif _ _ _); split; reflexivity.
Qed.

Lemma on_exception_started (e : exn) (w : World) :
  started (on_exception e w).2 = started w.
Proof.
  unfold on_exception.
  cbv [mbind app_bind os_path_exists container_set speed_up st_write].
  destruct (bool_decide _); [| reflexivity].
  destruct (speed_up_gif _ _ _); reflexivity.
Qed.

Lemma show_gif_raises (w : World) (e : exn) :
  is_Some (files w !! "agent_history.gif") ->
  speed_up_gif (files w) "agent_history.gif" 2 = Raise e ->
  show_gif w =
    (Raise e, with_gif w (Some (Markdown [Lit "### Task Execution"]))).
Proof.
  intros Hfile Hgif. unfold show_gif.
  cbv [mbind app_bind os_path_exists container_set speed_up].
  rewrite (bool_decide_eq_true_2 _ Hfile).
  change (files (with_gif w ?x)) with (files w). rewrite Hgif. reflexivity.
Qed.

Lemma on_exception_raises (e0 : exn) (w : World) (e : exn) :
  is_Some (files w !! "agent_history.gif") ->
  speed_up_gif (files w) "agent_history.gif" 2 = Raise e ->
  on_exception e0 w =
    (Raise e,
     with_gif (with_final_result w (Some (failure_banner e0)))
              (Some (Markdown [Lit "### Task Execution (Failed)"]))).
Proof.
  intros Hfile Hgif. unfold on_exception.
  cbv [mbind app_bind os_path_exists container_set speed_up st_write].
  change (files (with_final_result w ?x)) with (files w).
  rewrite (bool_decide_eq_true_2 _ Hfile).
  change (files (with_gif ?y ?x)) with (files w). rewrite Hgif. reflexivity.
Qed.

Section HandlerProperties.

Context (environ : gmap string string).
Context (credentials : result unit).
Context (agent_run : AgentArgs -> gmap string file_content ->
                     result History * gmap string file_content).

(** C9: with an empty task the handler only writes the validation error
    and starts no agent; and whatever the task, a run of the handler
    starts at most one agent, with the session's task, which is then
    not empty. *)
Theorem empty_task_never_starts_agent (s : Session) (w : World) :
  (run_task_clicked s = true -> task s = EmptyString ->
   run_task environ credentials agent_run s w =
     (Ok tt,
      with_page w (page w ++ [Error [Lit "Please enter a task first!"]]))
   /\ started (run_task environ credentials agent_run s w).2 = started w) /\
  (started (run_task environ credentials agent_run s w).2 = started w \/
   exists a,
     started (run_task environ credentials agent_run s w).2
       = started w ++ [a] /\
     agent_task a = task s /\ task s <> EmptyString).
Proof.
  split.
  - intros Hc Ht. unfold run_task. rewrite Hc, Ht. split; reflexivity.
  - unfold run_task.
    destruct (run_task_clicked s); [| left; reflexivity].
    destruct (str_truthy (task s)) eqn:Ht; [| left; reflexivity].
    apply str_truthy_true in Ht. cbn [negb].
    cbv [mbind app_bind container_set lift].
    destruct (get_llm credentials (model_type s)) as [llm | e]; [| left; reflexivity].
    right. exists (agent_of environ s llm).
    split; [| split; [reflexivity | exact Ht]].
    unfold try_except. cbv [mbind app_bind]. unfold run_agent.
    match goal with
    | |- context [agent_run ?a ?fs] =>
        destruct (agent_run a fs) as [[h | e] fs']
    end.
    + match goal with
      | |- context [show_history h ?w1] =>
          destruct (show_history_spec h w1) as (o & _ & ->)
      end.
      match goal with
      | |- context [show_gif ?w2] =>
          pose proof (show_gif_started w2) as [Hs _];
          destruct (show_gif w2) as [[[] | e] w3]
      end.
      * cbn [snd] in *. rewrite Hs. reflexivity.
      * rewrite on_exception_started. cbn [snd] in Hs. rewrite Hs.
        reflexivity.
    + rewrite on_exception_started. reflexivity.
Qed.

(** C6, amended: when the agent returned a history, the replay file
    exists and [speed_up_gif] raises on it, the steps and the debug view
    already on the page stay as rendered, and the banner is replaced by
    the failure banner carrying the text of that exception. *)
Theorem gif_failure_replaces_banner (s : Session) (w : World) (llm : LLM)
    (h : History) (fs' : gmap string file_content) (e : exn) :
  run_task_clicked s = true ->
  task s <> EmptyString ->
  get_llm credentials (model_type s) = Ok llm ->
  agent_run (agent_of environ s llm) (files w) = (Ok h, fs') ->
  is_Some (fs' !! "agent_history.gif") ->
  speed_up_gif fs' "agent_history.gif" 2 = Raise e ->
  exists o, reconcile h = Ok o /\
    page (run_task environ credentials agent_run s w).2
      = page w ++ render o /\
    final_result (run_task environ credentials agent_run s w).2
      = Some (failure_banner e).
Proof.
  intros Hc Ht Hllm Hrun Hfile Hgif.
  apply str_truthy_true in Ht.
  unfold run_task. rewrite Hc, Ht. cbn [negb].
  cbv [mbind app_bind container_set lift]. rewrite Hllm.
  unfold try_except. cbv [mbind app_bind]. unfold run_agent.
  cbv zeta. cbn [files with_gif with_agent_history with_final_result].
  rewrite Hrun.
  match goal with
  | |- context [show_history h ?w1] =>
      destruct (show_history_spec h w1) as (o & Ho & ->)
  end.
  exists o. split; [exact Ho |].
  match goal with
  | |- context [show_gif ?w2] =>
      rewrite (show_gif_raises w2 e Hfile Hgif)
  end.
  match goal with
  | |- context [on_exception e ?w3] =>
      rewrite (on_exception_raises e w3 e Hfile Hgif)
  end.
  split; reflexivity.
Qed.

End HandlerProperties.

(** C9, on a click with the task field left empty. *)
Lemma empty_task_never_starts_agent_witness :
  run_task ∅ (Ok tt) garbling_agent (sample_session EmptyString) (blank_page ∅)
    = (Ok tt, with_page (blank_page ∅)
                [Error [Lit "Please enter a task first!"]])
  /\ started (run_task ∅ (Ok tt) garbling_agent (sample_session EmptyString)
                       (blank_page ∅)).2 = [].
Proof.
  apply (empty_task_never_starts_agent ∅ (Ok tt) garbling_agent
           (sample_session EmptyString) (blank_page ∅)); reflexivity.
Defined.

(** C6, as stated, fails: on a run that returns the sample history and
    leaves an unreadable replay file, the success banner the display of
    the history had set is gone after the handler: the failure banner with
    the decoder's message stands in its place. *)
Lemma gif_failure_overwrites_success_banner :
  final_result (show_history sample_history (blank_page garbled_file)).2
    = Some (Success [Lit "✅ Task Completed Successfully: ";
                     Fmt (PyStr "world")]) /\
  is_ok (speed_up_gif garbled_file "agent_history.gif" 2) = false /\
  final_result (run_task ∅ (Ok tt) garbling_agent
                  (sample_session "open the first post") (blank_page ∅)).2
    = Some (Error [Lit "❌ Task Failed: ";
                   Fmt (PyStr "cannot identify image file 'agent_history.gif'")]) /\
  final_result (run_task ∅ (Ok tt) garbling_agent
                  (sample_session "open the first post") (blank_page ∅)).2
    <> final_result (show_history sample_history (blank_page garbled_file)).2.
Proof.
  split; [reflexivity |]. split; [reflexivity |].
  split; [reflexivity | discriminate].
Qed.

(** C6, amended, on the same run. *)
Lemma gif_failure_replaces_banner_witness :
  exists o, reconcile sample_history = Ok o /\
    page (run_task ∅ (Ok tt) garbling_agent
            (sample_session "open the first post") (blank_page ∅)).2
      = page (blank_page ∅) ++ render o /\
    final_result (run_task ∅ (Ok tt) garbling_agent
                    (sample_session "open the first post") (blank_page ∅)).2
      = Some (failure_banner (UnidentifiedImageError "agent_history.gif")).
Proof.
  apply (gif_failure_replaces_banner ∅ (Ok tt) garbling_agent
           (sample_session "open the first post") (blank_page ∅)
           (ChatOpenAI "gpt-4o") sample_history garbled_file
           (UnidentifiedImageError "agent_history.gif")).
  - reflexivity.
  - discriminate.
  - reflexivity.
  - reflexivity.
  - exists (NotAnImage [71; 73; 70]). reflexivity.
  - reflexivity.
Defined.

(** * Further properties *)

(** ** [speed_up_gif]: edge cases and arithmetic *)

(** X1: with a speed factor of 0, [speed_up_gif] raises
    [ZeroDivisionError] on every file that decodes, and returns no bytes. *)
Theorem speed_up_gif_zero_factor (fs : gmap string file_content)
    (path : string) (f : Frame) (rest : list Frame) :
  fs !! path = Some (ImageFile f rest) ->
  speed_up_gif fs path 0 = Raise ZeroDivisionError.
Proof.
  intros Hfile. unfold speed_up_gif, Image_open. rewrite Hfile.
  cbn [mbind result_bind].
  set (img := {| im_first := f; im_rest := rest; im_pos := 0 |}).
  destruct (seek_loop_spec (fun i => info_get i "duration" 100)
              (n_frames img) 0%nat img [])
    as (img1 & Hf1 & Hr1 & Heq1); [lia |].
  unfold range. rewrite Heq1. cbn [mbind result_bind app].
  assert (Hn : n_frames img1 = n_frames img)
    by (unfold n_frames, im_frames; rewrite Hf1, Hr1; reflexivity).
  destruct (seek_loop_spec copy (n_frames img1) 0%nat img1 [])
    as (img2 & Hf2 & Hr2 & Heq2); [lia |].
  rewrite Heq2. cbn [mbind result_bind app].
  rewrite Hn. change (n_frames img) with (S (length rest)).
  cbn [seq fmap list_fmap]. reflexivity.
Qed.

Lemma speed_up_gif_zero_factor_witness :
  speed_up_gif three_frames "agent_history.gif" 0 = Raise ZeroDivisionError.
Proof.
  apply (speed_up_gif_zero_factor three_frames "agent_history.gif"
           (frame_of [1; 1] (Some 100))
           [frame_of [2; 2] (Some 100); frame_of [3; 3] (Some 100)]).
  reflexivity.
Defined.

(** X2: with a factor of at least 1 and durations that are not negative,
    no frame is shown longer than before and no duration becomes
    negative. *)
Theorem speed_up_gif_never_slows (fs : gmap string file_content)
    (path : string) (f : Frame) (rest : list Frame) (s : Z) :
  fs !! path = Some (ImageFile f rest) ->
  1 <= s ->
  Forall (fun fr => 0 <= frame_duration fr) (f :: rest) ->
  exists out, speed_up_gif fs path s = Ok out /\
    forall i fr, (f :: rest) !! i = Some fr ->
      exists d, gif_durations out !! i = Some d /\
                0 <= d <= frame_duration fr.
Proof.
  intros Hfile Hs Hpos.
  rewrite (speed_up_gif_spec fs path f rest s Hfile) by lia.
  eexists. split; [reflexivity |].
  intros i fr Hi. cbn [gif_durations].
  exists (frame_duration fr / s). split.
  - rewrite list_lookup_fmap, Hi. reflexivity.
  - rewrite Forall_lookup in Hpos. specialize (Hpos i fr Hi). cbn in Hpos.
    split.
    + apply Z.div_pos; lia.
    + apply Z.div_le_upper_bound; [lia | nia].
Qed.

Lemma speed_up_gif_never_slows_witness :
  exists out, speed_up_gif untimed_frames "agent_history.gif" 3 = Ok out /\
    exists d, gif_durations out !! 0%nat = Some d /\ 0 <= d <= 40.
Proof.
  destruct (speed_up_gif_never_slows untimed_frames "agent_history.gif"
              (frame_of [1; 1] (Some 40)) [frame_of [2; 2] None] 3)
    as (out & Hout & Hb).
  - reflexivity.
  - lia.
  - repeat constructor; vm_compute; discriminate.
  - exists out. split; [exact Hout |].
    apply (Hb 0%nat (frame_of [1; 1] (Some 40))). reflexivity.
Defined.

(** X3: speeding up twice is speeding up once by the product.  When the
    animation returned for the factor [a] is stored and read back with
    its frames and durations intact, [speed_up_gif] with the factor [b]
    on it returns what the factor [a * b] returns on the original. *)
Theorem speed_up_gif_twice (fs1 fs2 : gmap string file_content)
    (path : string) (f1 f2 : Frame) (rest1 rest2 : list Frame)
    (a b : Z) (out1 : GifData) :
  0 < a -> 0 < b ->
  fs1 !! path = Some (ImageFile f1 rest1) ->
  speed_up_gif fs1 path a = Ok out1 ->
  fs2 !! path = Some (ImageFile f2 rest2) ->
  pixels <$> (f2 :: rest2) = gif_frames out1 ->
  frame_duration <$> (f2 :: rest2) = gif_durations out1 ->
  speed_up_gif fs2 path b = speed_up_gif fs1 path (a * b).
Proof.
  intros Ha Hb H1 Hout H2 Hpx Hdur.
  rewrite (speed_up_gif_spec fs1 path f1 rest1 a H1) in Hout by lia.
  injection Hout as <-. cbn [gif_frames gif_durations] in Hpx, Hdur.
  rewrite (speed_up_gif_spec fs2 path f2 rest2 b H2) by lia.
  rewrite (speed_up_gif_spec fs1 path f1 rest1 (a * b) H1) by lia.
  f_equal. f_equal.
  - exact Hpx.
  - change (frame_duration <$> f2 :: rest2
            = (fun fr => frame_duration fr / a) <$> (f1 :: rest1)) in Hdur.
    transitivity ((fun d => d / b) <$> (frame_duration <$> (f2 :: rest2))).
    + exact (list_fmap_compose frame_duration (fun d => d / b) (f2 :: rest2)).
    + rewrite Hdur.
      transitivity ((fun fr => frame_duration fr / a / b) <$> (f1 :: rest1)).
      * symmetry.
        exact (list_fmap_compose (fun fr => frame_duration fr / a)
                 (fun d => d / b) (f1 :: rest1)).
      * apply list_fmap_ext. intros i fr _. apply Z.div_div; lia.
Qed.

Lemma speed_up_gif_twice_witness :
  speed_up_gif
    {[ "agent_history.gif" :=
         ImageFile (frame_of [1; 1] (Some 50))
                   [frame_of [2; 2] (Some 50); frame_of [3; 3] (Some 50)] ]}
    "agent_history.gif" 5
  = speed_up_gif three_frames "agent_history.gif" (2 * 5).
Proof.
  apply (speed_up_gif_twice three_frames _ "agent_history.gif"
           (frame_of [1; 1] (Some 100)) (frame_of [1; 1] (Some 50))
           [frame_of [2; 2] (Some 100); frame_of [3; 3] (Some 100)]
           [frame_of [2; 2] (Some 50); frame_of [3; 3] (Some 50)]
           2 5
           {| gif_frames := [[1; 1]; [2; 2]; [3; 3]];
              gif_durations := [50; 50; 50]; gif_loop := 0 |}).
  - lia.
  - lia.
  - reflexivity.
  - reflexivity.
  - reflexivity.
  - reflexivity.
  - reflexivity.
Defined.

(** ** [get_llm] *)

(** X4: [get_llm] returns a client exactly for "openai", whatever the
    credentials, and for "gemini" when the credentials load; the
    comparison is exact, every other type raises a [ValueError] naming
    it, and a failure to load the credentials is passed on unchanged. *)
Theorem get_llm_cases (credentials : result unit) (model_type : string) :
  (is_ok (get_llm credentials model_type) = true <->
   model_type = "openai" \/
   (model_type = "gemini" /\ is_ok credentials = true)) /\
  (model_type = "openai" ->
   get_llm credentials model_type = Ok (ChatOpenAI "gpt-4o")) /\
  (forall e, model_type = "gemini" -> credentials = Raise e ->
             get_llm credentials model_type = Raise e) /\
  (model_type <> "openai" -> model_type <> "gemini" ->
   get_llm credentials model_type
     = Raise (ValueError ("Unknown model type: " +:+ model_type))).
Proof.
  unfold get_llm, setup_google_auth.
  destruct (String.eqb_spec model_type "openai") as [-> | Hno].
  - cbn. repeat split; auto; try congruence; discriminate.
  - destruct (String.eqb_spec model_type "gemini") as [-> | Hng].
    + destruct credentials as [[] | e0]; cbn.
      * repeat split; auto; try congruence; try discriminate.
      * repeat split; try congruence; try discriminate.
        intros [H | [_ H]]; discriminate.
    + cbn. repeat split; try congruence; try discriminate.
      intros [H | [H _]]; contradiction.
Qed.

Lemma get_llm_cases_witness :
  get_llm (Raise (FileNotFoundError "key.json")) "OpenAI"
    = Raise (ValueError "Unknown model type: OpenAI").
Proof.
  apply (get_llm_cases (Raise (FileNotFoundError "key.json")) "OpenAI");
    discriminate.
Defined.

(** ** The "Run Task" handler, path by path *)

Lemma show_gif_absent (w : World) :
  files w !! "agent_history.gif" = None -> show_gif w = (Ok tt, w).
Proof.
  intros Hnone. unfold show_gif. cbv [mbind app_bind os_path_exists].
  rewrite bool_decide_eq_false_2; [reflexivity |].
  rewrite Hnone. intros [x Hx]. discriminate.
Qed.

Lemma show_gif_ok (w : World) (g : GifData) :
  is_Some (files w !! "agent_history.gif") ->
  speed_up_gif (files w) "agent_history.gif" 2 = Ok g ->
  show_gif w =
    (Ok tt, with_gif w (Some (ImageEl g "Task execution steps (2x speed)"))).
Proof.
  intros Hfile Hgif. unfold show_gif.
  cbv [mbind app_bind os_path_exists container_set speed_up].
  rewrite (bool_decide_eq_true_2 _ Hfile).
  change (files (with_gif w ?x)) with (files w). rewrite Hgif. reflexivity.
Qed.

Lemma on_exception_absent (e : exn) (w : World) :
  files w !! "agent_history.gif" = None ->
  on_exception e w =
    (Ok tt,
     with_page (with_final_result w (Some (failure_banner e)))
               (page w ++ [failure_debug_view e])).
Proof.
  intros Hnone. unfold on_exception.
  cbv [mbind app_bind os_path_exists container_set st_write].
  change (files (with_final_result w ?x)) with (files w).
  rewrite bool_decide_eq_false_2; [reflexivity |].
  rewrite Hnone. intros [x Hx]. discriminate.
Qed.

Lemma on_exception_ok (e : exn) (w : World) (g : GifData) :
  is_Some (files w !! "agent_history.gif") ->
  speed_up_gif (files w) "agent_history.gif" 2 = Ok g ->
  on_exception e w =
    (Ok tt,
     with_page
       (with_gif (with_final_result w (Some (failure_banner e)))
          (Some (ImageEl g "Task execution steps before failure (2x speed)")))
       (page w ++ [failure_debug_view e])).
Proof.
  intros Hfile Hgif. unfold on_exception.
  cbv [mbind app_bind os_path_exists container_set speed_up st_write].
  change (files (with_final_result w ?x)) with (files w).
  rewrite (bool_decide_eq_true_2 _ Hfile).
  change (files (with_gif ?y ?x)) with (files w). rewrite Hgif. reflexivity.
Qed.

(** With a factor of 2, [speed_up_gif] on an existing file either returns
    an animation or raises [UnidentifiedImageError]. *)
Lemma speed_up_gif_2_cases (fs : gmap string file_content) (path : string) :
  is_Some (fs !! path) ->
  (exists g, speed_up_gif fs path 2 = Ok g) \/
  speed_up_gif fs path 2 = Raise (UnidentifiedImageError path).
Proof.
  intros [[raw | f rest] Hc].
  - right. eapply speed_up_gif_unidentified. exact Hc.
  - left. eexists. apply (speed_up_gif_spec fs path f rest 2 Hc). lia.
Qed.

Section HandlerPaths.

Context (environ : gmap string string).
Context (credentials : result unit).
Context (agent_run : AgentArgs -> gmap string file_content ->
                     result History * gmap string file_content).

(** Once the client is there, the handler is the [try] statement run in
    the world the agent left. *)
Lemma run_task_after_agent (s : Session) (w : World) (llm : LLM)
    (r : result History) (fs' : gmap string file_content) :
  run_task_clicked s = true ->
  task s <> EmptyString ->
  get_llm credentials (model_type s) = Ok llm ->
  agent_run (agent_of environ s llm) (files w) = (r, fs') ->
  run_task environ credentials agent_run s w =
    match r with
    | Ok h =>
        try_except (show_history h;; show_gif) on_exception
          (after_agent w (agent_of environ s llm) fs')
    | Raise e => on_exception e (after_agent w (agent_of environ s llm) fs')
    end.
Proof.
  intros Hc Ht Hllm Hrun. apply str_truthy_true in Ht.
  unfold run_task. rewrite Hc, Ht. cbn [negb].
  cbv [mbind app_bind container_set lift]. rewrite Hllm.
  unfold try_except. cbv [mbind app_bind]. unfold run_agent.
  cbv zeta. cbn [files with_gif with_agent_history with_final_result].
  rewrite Hrun. destruct r as [h | e]; reflexivity.
Qed.

(** X5: a run that returns a history and leaves a replay file that
    decodes ends normally: the banner of the verdict, the steps and the
    debug view on the page, and the replay at twice the speed in the GIF
    placeholder. *)
Theorem run_task_success_with_replay (s : Session) (w : World) (llm : LLM)
    (h : History) (fs' : gmap string file_content)
    (f : Frame) (rest : list Frame) :
  run_task_clicked s = true ->
  task s <> EmptyString ->
  get_llm credentials (model_type s) = Ok llm ->
  agent_run (agent_of environ s llm) (files w) = (Ok h, fs') ->
  fs' !! "agent_history.gif" = Some (ImageFile f rest) ->
  exists o, reconcile h = Ok o /\
    run_task environ credentials agent_run s w =
      (Ok tt,
       {| final_result := Some (banner o);
          agent_history := None;
          gif := Some (ImageEl
                         {| gif_frames := pixels <$> (f :: rest);
                            gif_durations :=
                              (fun fr => frame_duration fr / 2) <$> (f :: rest);
                            gif_loop := loop_forever |}
                         "Task execution steps (2x speed)");
          page := page w ++ render o;
          files := fs';
          started := started w ++ [agent_of environ s llm] |}).
Proof.
  intros Hc Ht Hllm Hrun Hfile.
  rewrite (run_task_after_agent s w llm (Ok h) fs' Hc Ht Hllm Hrun).
  unfold try_except. cbv [mbind app_bind].
  destruct (show_history_spec h (after_agent w (agent_of environ s llm) fs'))
    as (o & Ho & ->).
  exists o. split; [exact Ho |].
  erewrite show_gif_ok.
  - reflexivity.
  - cbn. rewrite Hfile. eauto.
  - cbn [files with_final_result with_page after_agent].
    apply (speed_up_gif_spec fs' _ f rest 2 Hfile). lia.
Qed.

(** X6: a run that returns a history and leaves no replay file ends
    normally with the GIF placeholder empty. *)
Theorem run_task_success_without_replay (s : Session) (w : World) (llm : LLM)
    (h : History) (fs' : gmap string file_content) :
  run_task_clicked s = true ->
  task s <> EmptyString ->
  get_llm credentials (model_type s) = Ok llm ->
  agent_run (agent_of environ s llm) (files w) = (Ok h, fs') ->
  fs' !! "agent_history.gif" = None ->
  exists o, reconcile h = Ok o /\
    run_task environ credentials agent_run s w =
      (Ok tt,
       {| final_result := Some (banner o);
          agent_history := None;
          gif := None;
          page := page w ++ render o;
          files := fs';
          started := started w ++ [agent_of environ s llm] |}).
Proof.
  intros Hc Ht Hllm Hrun Hfile.
  rewrite (run_task_after_agent s w llm (Ok h) fs' Hc Ht Hllm Hrun).
  unfold try_except. cbv [mbind app_bind].
  destruct (show_history_spec h (after_agent w (agent_of environ s llm) fs'))
    as (o & Ho & ->).
  exists o. split; [exact Ho |].
  rewrite show_gif_absent by exact Hfile. reflexivity.
Qed.


(** X8: the client is created outside the [try]: when [get_llm] raises,
    the exception leaves the handler, with the placeholders cleared, the
    page as it was and no agent started. *)
Theorem run_task_client_failure (s : Session) (w : World) (e : exn) :
  run_task_clicked s = true ->
  task s <> EmptyString ->
  get_llm credentials (model_type s) = Raise e ->
  run_task environ credentials agent_run s w =
    (Raise e,
     {| final_result := None; agent_history := None; gif := None;
        page := page w; files := files w; started := started w |}).
Proof.
  intros Hc Ht Hllm. apply str_truthy_true in Ht.
  unfold run_task. rewrite Hc, Ht. cbn [negb].
  cbv [mbind app_bind container_set lift]. rewrite Hllm. reflexivity.
Qed.

End HandlerPaths.

Lemma run_task_success_with_replay_witness :
  exists o, reconcile sample_history = Ok o /\
    run_task ∅ (Ok tt) recording_agent (sample_session "open the first post")
      (blank_page ∅) =
      (Ok tt,
       {| final_result := Some (banner o);
          agent_history := None;
          gif := Some (ImageEl
                         {| gif_frames := [[1; 1]; [2; 2]; [3; 3]];
                            gif_durations := [50; 50; 50];
                            gif_loop := 0 |}
                         "Task execution steps (2x speed)");
          page := render o;
          files := three_frames;
          started := [agent_of ∅ (sample_session "open the first post")
                        (ChatOpenAI "gpt-4o")] |}).
Proof.
  apply (run_task_success_with_replay ∅ (Ok tt) recording_agent
           (sample_session "open the first post") (blank_page ∅)
           (ChatOpenAI "gpt-4o") sample_history three_frames
           (frame_of [1; 1] (Some 100))
           [frame_of [2; 2] (Some 100); frame_of [3; 3] (Some 100)]).
  - reflexivity.
  - discriminate.
  - reflexivity.
  - reflexivity.
  - reflexivity.
Defined.

Lemma run_task_success_without_replay_witness :
  exists o, reconcile sample_history = Ok o /\
    run_task ∅ (Ok tt) quiet_agent (sample_session "open the first post")
      (blank_page ∅) =
      (Ok tt,
       {| final_result := Some (banner o);
          agent_history := None;
          gif := None;
          page := render o;
          files := ∅;
          started := [agent_of ∅ (sample_session "open the first post")
                        (ChatOpenAI "gpt-4o")] |}).
Proof.
  apply (run_task_success_without_replay ∅ (Ok tt) quiet_agent
           (sample_session "open the first post") (blank_page ∅)
           (ChatOpenAI "gpt-4o") sample_history ∅).
  - reflexivity.
  - discriminate.
  - reflexivity.
  - reflexivity.
  - reflexivity.
Defined.


Lemma run_task_client_failure_witness :
  run_task ∅ (Raise (FileNotFoundError "key.json")) quiet_agent
    {| model_type := "gemini"; USE_PERSONAL_BROWSER := false;
       USE_VISION := false; task := "open the first post";
       run_task_clicked := true |}
    (blank_page three_frames) =
    (Raise (FileNotFoundError "key.json"), blank_page three_frames).
Proof.
  apply (run_task_client_failure ∅ (Raise (FileNotFoundError "key.json"))
           quiet_agent).
  - reflexivity.
  - discriminate.
  - reflexivity.
Defined.

(** ** What the handler keeps, on every path *)

Lemma show_gif_frame (w : World) :
  files (show_gif w).2 = files w /\
  agent_history (show_gif w).2 = agent_history w.
Proof.
  unfold show_gif. cbv [mbind app_bind os_path_exists container_set speed_up].
  destruct (bool_decide _); [| split; reflexivity].
  destruct (speed_up_gif _ _ _); split; reflexivity.
Qed.

Lemma on_exception_frame (e : exn) (w : World) :
  files (on_exception e w).2 = files w /\
  agent_history (on_exception e w).2 = agent_history w /\
  exists added, page (on_exception e w).2 = page w ++ added.
Proof.
  unfold on_exception.
  cbv [mbind app_bind os_path_exists container_set speed_up st_write].
  destruct (bool_decide _).
  - destruct (speed_up_gif _ _ _).
    + repeat split. eexists. reflexivity.
    + repeat split. exists []. rewrite app_nil_r. reflexivity.
  - repeat split. eexists. reflexivity.
Qed.

Lemma on_exception_result (e : exn) (w : World) :
  (on_exception e w).1 = Ok tt \/
  (on_exception e w).1 = Raise (UnidentifiedImageError "agent_history.gif").
Proof.
  destruct (files w !! "agent_history.gif") as [c |] eqn:Hc.
  - assert (Hsome : is_Some (files w !! "agent_history.gif")) by eauto.
    destruct (speed_up_gif_2_cases (files w) "agent_history.gif" Hsome)
      as [[g Hg] | Hr].
    + left. rewrite (on_exception_ok e w g Hsome Hg). reflexivity.
    + right. rewrite (on_exception_raises e w _ Hsome Hr). reflexivity.
  - left. rewrite (on_exception_absent e w Hc). reflexivity.
Qed.

(** The [try] statement for a returned history. *)
Lemma try_block_frame (h : History) (w : World) :
  files (try_except (show_history h;; show_gif) on_exception w).2 = files w /\
  agent_history (try_except (show_history h;; show_gif) on_exception w).2
    = agent_history w /\
  (exists added,
     page (try_except (show_history h;; show_gif) on_exception w).2
       = page w ++ added) /\
  ((try_except (show_history h;; show_gif) on_exception w).1 = Ok tt \/
   (try_except (show_history h;; show_gif) on_exception w).1
     = Raise (UnidentifiedImageError "agent_history.gif")).
Proof.
  unfold try_except. cbv [mbind app_bind].
  destruct (show_history_spec h w) as (o & _ & ->).
  set (w1 := with_final_result (with_page w (page w ++ render o))
                               (Some (banner o))).
  pose proof (show_gif_frame w1) as [Hf Ha].
  pose proof (show_gif_started w1) as [_ Hp].
  destruct (show_gif w1) as [[[] | e] w2]; cbn [fst snd] in *.
  - rewrite Hf, Ha, Hp. repeat split; eauto.
  - pose proof (on_exception_frame e w2) as (Hf' & Ha' & added & Hp').
    rewrite Hf', Ha', Hp', Hf, Ha, Hp. repeat split.
    + exists (render o ++ added).
      change (page w1) with (page w ++ render o).
      rewrite <- app_assoc. reflexivity.
    + apply on_exception_result.
Qed.

Section HandlerInvariants.

Context (environ : gmap string string).
Context (credentials : result unit).
Context (agent_run : AgentArgs -> gmap string file_content ->
                     result History * gmap string file_content).

Lemma run_task_frame (s : Session) (w : World) :
  (exists added,
     page (run_task environ credentials agent_run s w).2 = page w ++ added) /\
  (files (run_task environ credentials agent_run s w).2 = files w \/
   exists llm, get_llm credentials (model_type s) = Ok llm /\
     files (run_task environ credentials agent_run s w).2
       = (agent_run (agent_of environ s llm) (files w)).2) /\
  agent_history (run_task environ credentials agent_run s w).2
    = (if run_task_clicked s && str_truthy (task s)
       then None else agent_history w) /\
  (forall e, (run_task environ credentials agent_run s w).1 = Raise e ->
     get_llm credentials (model_type s) = Raise e \/
     e = UnidentifiedImageError "agent_history.gif").
Proof.
  destruct (run_task_clicked s) eqn:Hc.
  2:{ unfold run_task. rewrite Hc. cbn.
      repeat split; auto; try discriminate.
      exists []. rewrite app_nil_r. reflexivity. }
  destruct (str_truthy (task s)) eqn:Ht.
  2:{ unfold run_task. rewrite Hc, Ht. cbn.
      repeat split; auto; try discriminate. eexists. reflexivity. }
  pose proof Ht as Ht'. apply str_truthy_true in Ht'. cbn [andb].
  destruct (get_llm credentials (model_type s)) as [llm | e0] eqn:Hllm.
  2:{ rewrite (run_task_client_failure environ credentials agent_run
                 s w e0 Hc Ht' Hllm). cbn.
      repeat split; auto.
      - exists []. rewrite app_nil_r. reflexivity.
      - intros e He. left. congruence. }
  destruct (agent_run (agent_of environ s llm) (files w)) as [r fs'] eqn:Hrun.
  rewrite (run_task_after_agent environ credentials agent_run
             s w llm r fs' Hc Ht' Hllm Hrun).
  set (w1 := after_agent w (agent_of environ s llm) fs').
  destruct r as [h | e0].
  - pose proof (try_block_frame h w1) as (Hf & Ha & [added Hp] & Hr).
    rewrite Hf, Ha, Hp. repeat split.
    + eexists. reflexivity.
    + right. exists llm. split; [reflexivity | rewrite Hrun; reflexivity].
    + intros e He. right. destruct Hr as [Hr | Hr]; rewrite Hr in He;
        congruence.
  - pose proof (on_exception_frame e0 w1) as (Hf & Ha & [added Hp]).
    pose proof (on_exception_result e0 w1) as Hr.
    rewrite Hf, Ha, Hp. repeat split.
    + eexists. reflexivity.
    + right. exists llm. split; [reflexivity | rewrite Hrun; reflexivity].
    + intros e He. right. destruct Hr as [Hr | Hr]; rewrite Hr in He;
        congruence.
Qed.

(** X9: the page only grows: whatever happens, the elements that were
    on the page before the handler ran are still there, in order, in
    front of what it wrote. *)
Theorem run_task_page_grows (s : Session) (w : World) :
  exists added,
    page (run_task environ credentials agent_run s w).2 = page w ++ added.
Proof. apply run_task_frame. Qed.

(** X10: the handler itself never writes or removes a file: after it the
    file system is as it was, or as the agent run left it.  In
    particular the replay file is never deleted. *)
Theorem run_task_files_untouched (s : Session) (w : World) :
  files (run_task environ credentials agent_run s w).2 = files w \/
  exists llm, get_llm credentials (model_type s) = Ok llm /\
    files (run_task environ credentials agent_run s w).2
      = (agent_run (agent_of environ s llm) (files w)).2.
Proof. apply run_task_frame. Qed.

(** X11: the placeholder [agent_history_container] is cleared on every
    run with a task and never written to: after the handler it is empty
    when the button was clicked with a task, and as before otherwise. *)
Theorem run_task_agent_history_unused (s : Session) (w : World) :
  agent_history (run_task environ credentials agent_run s w).2
    = (if run_task_clicked s && str_truthy (task s)
       then None else agent_history w).
Proof. apply run_task_frame. Qed.


End HandlerInvariants.


(** ** The debug page *)

Section DebugPageProperties.

Context (environ : gmap string string).
Context (credentials : result unit).
Context (agent_run : string -> LLM -> gmap string file_content ->
                     result History * gmap string file_content).
Context (pformat : History -> string).


(** X14: on the debug page a client that cannot be created is reported
    on the page as "An error occurred: ..." with the exception's text;
    no agent is started and nothing is logged.  The model type is the
    value of [LLM_TYPE] as it is, so a value in another case than
    "openai" or "gemini" is reported as unknown. *)
Theorem debug_run_task_client_failure (task : string) (w : DebugWorld)
    (e : exn) :
  task <> EmptyString ->
  get_llm credentials (os_getenv environ "LLM_TYPE" "gemini") = Raise e ->
  debug_run_task environ credentials agent_run pformat task true w =
    (Ok tt,
     {| debug_page :=
          debug_page w ++ [DebugError [Lit "An error occurred: ";
                                       Fmt (PyStr (str_exn e))]];
        debug_log := debug_log w;
        debug_files := debug_files w;
        debug_started := debug_started w |}).
Proof.
  intros Ht Hllm. apply str_truthy_true in Ht.
  unfold debug_run_task, debug_try. rewrite Ht, Hllm. reflexivity.
Qed.

(** X15: the log follows the text area.  Either the run returned a
    result, and then the page gains one text area with the formatted
    result and the log one record with the same text; or nothing is
    logged and the page gains at most one error message. *)
Theorem debug_run_task_log_follows_page (task : string) (clicked : bool)
    (w : DebugWorld) :
  (debug_log (debug_run_task environ credentials agent_run pformat
                task clicked w).2 = debug_log w /\
   (debug_page (debug_run_task environ credentials agent_run pformat
                  task clicked w).2 = debug_page w \/
    exists text,
      debug_page (debug_run_task environ credentials agent_run pformat
                    task clicked w).2 = debug_page w ++ [DebugError text]))
  \/
  (exists h,
     debug_log (debug_run_task environ credentials agent_run pformat
                  task clicked w).2
       = debug_log w ++ ["Agent run result:" +:+ newline +:+ pformat h] /\
     debug_page (debug_run_task environ credentials agent_run pformat
                   task clicked w).2
       = debug_page w ++ [TextArea "Debug Output (copy and paste this)"
                                   (pformat h) 500]).
Proof.
  unfold debug_run_task. destruct clicked; [| left; auto].
  destruct (str_truthy task); [| left; split; [reflexivity | right; eauto]].
  cbn [negb]. unfold debug_try.
  destruct (get_llm credentials _) as [llm | e];
    [| left; split; [reflexivity | right; eauto]].
  destruct (agent_run task llm (debug_files w)) as [[h | e] fs'].
  - right. exists h. split; reflexivity.
  - left. split; [reflexivity | right; eauto].
Qed.

End DebugPageProperties.

Lemma debug_run_task_client_failure_witness :
  debug_run_task {[ "LLM_TYPE" := "Gemini" ]} (Ok tt) debug_agent
    (fun h => "history") "open the first post" true blank_debug_page =
    (Ok tt,
     {| debug_page := [DebugError [Lit "An error occurred: ";
                                   Fmt (PyStr "Unknown model type: Gemini")]];
        debug_log := [];
        debug_files := ∅;
        debug_started := [] |}).
Proof.
  apply (debug_run_task_client_failure {[ "LLM_TYPE" := "Gemini" ]} (Ok tt)
           debug_agent (fun h => "history") "open the first post"
           blank_debug_page (ValueError "Unknown model type: Gemini")).
  - discriminate.
  - reflexivity.
Defined.
